(** * generate_icons.py: placeholder icons for the SEO & AEO Auditor extension

    A shallow embedding of [icons/generate_icons.py].  Python integers are
    [Z] (floor division [//] is [Z.div], the divisors being positive
    literals), strings are [string], the file system touched by [img.save]
    is a finite map from paths to file contents, and standard output is the
    character stream that [print] appends to.  An exception is an explicit
    outcome next to the world it leaves behind, so that what was written
    before a failure stays visible. *)

From Stdlib Require Import Ascii.
From stdpp Require Import base numbers strings pretty list gmap.

Local Open Scope Z_scope.

(** ** The part of Pillow the script calls *)

Module Pillow.

Definition color : Type := Z * Z * Z.
Definition box : Type := Z * Z * Z * Z.

(** Image modes; the script only ever asks for ['RGB']. *)
Inductive mode := L | LA | P | RGB | RGBA | CMYK.

Definition has_alpha (m : mode) : bool :=
  match m with
  | LA | RGBA => true
  | _ => false
  end.

(** [ImageFont.truetype(path, size)] gives a scalable font, and
    [ImageFont.load_default()] the built-in one. *)
Inductive font :=
| TrueType (path : string) (font_size : Z)
| DefaultFont.

(** What [ImageDraw] was asked to paint, with the arguments of the call. *)
Inductive primitive :=
| Ellipse (xy : box) (outline : color) (width : Z)
| Text (xy : Z * Z) (text : string) (fill : color) (fnt : font)
| Arc (xy : box) (start stop : Z) (fill : color) (width : Z).

(** A canvas: its allocation parameters and the primitives painted on
    it, oldest first. *)
Record image := Image {
  im_mode : mode;
  im_width : Z;
  im_height : Z;
  im_color : color;
  im_drawn : list primitive
}.

Definition paint (p : primitive) (img : image) : image :=
  Image (im_mode img) (im_width img) (im_height img) (im_color img)
        (im_drawn img ++ [p]).

Definition is_text (p : primitive) : bool :=
  match p with Text _ _ _ _ => true | _ => false end.

Definition is_arc (p : primitive) : bool :=
  match p with Arc _ _ _ _ _ => true | _ => false end.

Definition has_text (img : image) : bool := existsb is_text (im_drawn img).
Definition has_arc (img : image) : bool := existsb is_arc (im_drawn img).

(** Angles of [ImageDraw.arc] are degrees measured from 3 o'clock,
    increasing clockwise (the y axis of a raster points down); the arc
    runs from [start] clockwise to [stop]. *)
Inductive direction :=
| ToRight | ToLowerRight | ToBottom | ToLowerLeft
| ToLeft | ToUpperLeft | ToTop | ToUpperRight.

Definition direction_of_angle (a : Z) : option direction :=
  match a mod 360 with
  | 0 => Some ToRight
  | 45 => Some ToLowerRight
  | 90 => Some ToBottom
  | 135 => Some ToLowerLeft
  | 180 => Some ToLeft
  | 225 => Some ToUpperLeft
  | 270 => Some ToTop
  | 315 => Some ToUpperRight
  | _ => None
  end.

(** Degrees swept by the arc, for [start <= stop <= start + 360]. *)
Definition arc_span (start stop : Z) : Z := stop - start.

(** The part of the circle left open, and the angle at its middle. *)
Definition gap_extent (start stop : Z) : Z := 360 - arc_span start stop.
Definition gap_middle (start stop : Z) : Z :=
  (stop + gap_extent start stop / 2) mod 360.

End Pillow.

Import Pillow.

(** ** Exceptions, the world and the environment *)

Inductive exn :=
| ValueError
| OSError
| SystemExit (code : Z).

Inductive outcome (A : Type) :=
| Return (a : A)
| Raise (e : exn).
Arguments Return {A} a.
Arguments Raise {A} e.

(** Files are kept by path; [stdout] is the text printed so far. *)
Record world := World {
  files : gmap string (list Byte.byte);
  stdout : string
}.

(** What the script cannot decide by itself: whether Pillow imports, which
    font files resolve, how a text measures in a font, how a canvas encodes
    to PNG and which paths can be written. *)
Record env := Env {
  pillow_installed : bool;
  truetype : string → Z → option font;
  textbbox : Z * Z → string → font → box;
  encode_png : image → list Byte.byte;
  writable : string → bool
}.

(** A computation runs in a world and leaves a world behind, whether it
    returns or raises. *)
Definition M (A : Type) : Type := world → world * outcome A.

Definition ret {A} (a : A) : M A := λ w, (w, Return a).
Definition raise {A} (e : exn) : M A := λ w, (w, Raise e).
Definition bind {A B} (m : M A) (k : A → M B) : M B :=
  λ w, match m w with
       | (w', Return a) => k a w'
       | (w', Raise e) => (w', Raise e)
       end.

(** Statements in sequence: the second runs only if the first returns. *)
Definition and_then (m k : M unit) : M unit := bind m (λ _, k).
Infix ">>>" := and_then (at level 65, right associativity).

(** The line feed, written ["\n"] in the script. *)
Definition nl : string := String "010"%char "".

(** [print(s)] writes [s] and a line feed. *)
Definition print (s : string) : M unit :=
  λ w, (World (files w) (stdout w +:+ s +:+ nl), Return tt).

(** [str(n)] for an integer, as an f-string formats it. *)
Definition str (n : Z) : string := pretty n.

(** The f-string [f"icon{size}.png"] of the driver. *)
Definition icon_name (size : Z) : string := "icon" +:+ str size +:+ ".png".

(** The f-string [f"Created {filename} ({size}x{size})"] of line 65. *)
Definition created_message (filename : string) (size : Z) : string :=
  "Created " +:+ filename +:+ " (" +:+ str size +:+ "x" +:+ str size +:+ ")".

Section Script.

Context (E : env).

(** [Image.new(mode, (w, h), color)] refuses negative sizes. *)
Definition Image_new (m : mode) (w h : Z) (c : color) : outcome image :=
  if (w <? 0) || (h <? 0) then Raise ValueError
  else Return (Image m w h c []).

(** [img.save(filename, 'PNG')], for a canvas that has at least one
    pixel (Pillow does not encode an empty one). *)
Definition save (img : image) (filename : string) : M unit :=
  λ w, if writable E filename
       then (World (<[filename := encode_png E img]> (files w)) (stdout w),
             Return tt)
       else (w, Raise OSError).

(** Lines 33-41: the nested [try]/[except] around the font look-up. *)
Definition acquire_font (size : Z) : font :=
  let font_size := size / 3 in
  match truetype E "/System/Library/Fonts/Helvetica.ttc" font_size with
  | Some f => f
  | None =>
      match truetype E "arial.ttf" font_size with
      | Some f => f
      | None => DefaultFont
      end
  end.

(** Line 43. *)
Definition label (size : Z) : string :=
  if 64 <=? size then "SEO" else "S".

(** Lines 32-49. *)
Definition draw_text (size : Z) (img : image) : image :=
  if 48 <=? size then
    let fnt := acquire_font size in
    let text := label size in
    let '(b0, b1, b2, b3) := textbbox E (0, 0) text fnt in
    let text_width := b2 - b0 in
    let text_height := b3 - b1 in
    let text_x := (size - text_width) / 2 in
    let text_y := (size - text_height) / 2 in
    paint (Text (text_x, text_y) text (255, 255, 255) fnt) img
  else img.

(** Lines 52-62. *)
Definition draw_arc (size center : Z) (img : image) : image :=
  if size <? 48 then
    let line_length := size / 3 in
    let line_width := Z.max 1 (size / 16) in
    paint (Arc (center - line_length, center - line_length,
                center + line_length, center + line_length)
               45 315 (255, 255, 255) line_width) img
  else img.

(** Lines 16-62: the canvas as it stands when [img.save] is reached. *)
Definition draw_icon (size : Z) : outcome image :=
  match Image_new RGB size size (0, 123, 255) with
  | Raise e => Raise e
  | Return img =>
      let margin := size / 4 in
      let center := size / 2 in
      let radius := center - margin in
      let img := paint (Ellipse (margin, margin, size - margin, size - margin)
                                (255, 255, 255) (Z.max 2 (size / 32))) img in
      let img := draw_text size img in
      let img := draw_arc size center img in
      Return img
  end.

Definition create_icon (size : Z) (filename : string) : M unit :=
  match draw_icon size with
  | Raise e => raise e
  | Return img =>
      save img filename >>>
      print (created_message filename size)
  end.

(** [for size in sizes: create_icon(size, f"icon{size}.png")]. *)
Fixpoint for_sizes (sizes : list Z) : M unit :=
  match sizes with
  | [] => ret tt
  | size :: rest =>
      create_icon size (icon_name size) >>>
      for_sizes rest
  end.

Definition sizes : list Z := [16; 48; 128].

(** Lines 67-71. *)
Definition main : M unit :=
  for_sizes sizes >>>
  print (nl +:+ "Icons generated successfully!").

(** Lines 7-11: the guarded import. *)
Definition import_pillow : M unit :=
  if pillow_installed E then ret tt
  else
    print "Error: Pillow not installed. Install it with: pip install Pillow" >>>
    raise (SystemExit 1).

Definition script : M unit := import_pillow >>> main.

(** The interpreter turns the way the script ends into an exit status. *)
Definition exit_status (o : outcome unit) : Z :=
  match o with
  | Return _ => 0
  | Raise (SystemExit code) => code
  | Raise _ => 1
  end.

Definition run (w : world) : world * Z :=
  let '(w', o) := script w in (w', exit_status o).

End Script.

(** ** Reading a canvas and a console back *)

Definition ellipse_widths (img : image) : list Z :=
  omap (λ p, match p with Ellipse _ _ width => Some width | _ => None end)
       (im_drawn img).

Definition drawn_texts (img : image) : list string :=
  omap (λ p, match p with Text _ text _ _ => Some text | _ => None end)
       (im_drawn img).

Definition drawn_fonts (img : image) : list font :=
  omap (λ p, match p with Text _ _ _ fnt => Some fnt | _ => None end)
       (im_drawn img).

Definition drawn_arcs (img : image) : list primitive :=
  filter (λ p, is_arc p = true) (im_drawn img).

(** Where the opening of an arc points. *)
Definition gap_direction (p : primitive) : option direction :=
  match p with
  | Arc _ start stop _ _ => direction_of_angle (gap_middle start stop)
  | _ => None
  end.

(** The lines of a text: each line feed ends one, and what follows the
    last line feed counts only if it is not empty. *)
Fixpoint lines_from (cur s : string) : list string :=
  match s with
  | EmptyString => if decide (cur = "") then [] else [cur]
  | String c rest =>
      if decide (c = "010"%char) then cur :: lines_from "" rest
      else lines_from (cur +:+ String c "") rest
  end.

Definition lines (s : string) : list string := lines_from "" s.

(** ** Two machines to run the script on *)

(** No scalable font resolves, every path is writable; the built-in font
    is six pixels wide and eleven high per character, and the encoder is
    a stand-in: the PNG signature, then one byte per painted primitive. *)
Definition bare_machine : env :=
  Env true
      (λ _ _, None)
      (λ xy text _, (xy.1, xy.2, xy.1 + 6 * Z.of_nat (String.length text), xy.2 + 11))
      (λ img, [Byte.x89; Byte.x50; Byte.x4e; Byte.x47]
              ++ replicate (length (im_drawn img)) Byte.x00)
      (λ _, true).

(** As [bare_machine], with [icon48.png] on a path that cannot be written. *)
Definition locked_machine : env :=
  Env true
      (truetype bare_machine)
      (textbbox bare_machine)
      (encode_png bare_machine)
      (λ path, if decide (path = "icon48.png") then false else true).

(** A machine without Pillow. *)
Definition no_pillow_machine : env :=
  Env false
      (truetype bare_machine)
      (textbbox bare_machine)
      (encode_png bare_machine)
      (writable bare_machine).

Definition empty_world : world := World ∅ "".

(** As [bare_machine], with the system font of line 36 installed. *)
Definition helvetica_machine : env :=
  Env true
      (λ path font_size,
         if decide (path = "/System/Library/Fonts/Helvetica.ttc")
         then Some (TrueType path font_size) else None)
      (textbbox bare_machine)
      (encode_png bare_machine)
      (writable bare_machine).

(** A world that already holds a file of the user and some output. *)
Definition used_world : world :=
  World {["notes.txt" := [Byte.x68; Byte.x69]]} "$ python3 generate_icons.py".


(** ** The text branch with the calls that have no handler

    Only the two [ImageFont.truetype] calls of lines 36 and 39 sit under
    an [except].  [ImageFont.load_default()] on line 41 is the body of the
    last handler, and [draw.textbbox] and [draw.text] on lines 44 and 49
    come after the [try] statement: what any of the three raises leaves
    [create_icon].  [Script] takes these three calls as returning; here
    each of them may raise. *)

Record text_calls := TextCalls {
  load_default : outcome font;
  textbbox_call : Z * Z → string → font → outcome box;
  text_call : Z * Z → string → color → font → outcome unit
}.

Module Unguarded.

Section Script.

Context (E : env) (T : text_calls).

(** Lines 33-41. *)
Definition acquire_font (size : Z) : outcome font :=
  let font_size := size / 3 in
  match truetype E "/System/Library/Fonts/Helvetica.ttc" font_size with
  | Some f => Return f
  | None =>
      match truetype E "arial.ttf" font_size with
      | Some f => Return f
      | None => load_default T
      end
  end.

(** Lines 32-49. *)
Definition draw_text (size : Z) (img : image) : outcome image :=
  if 48 <=? size then
    match acquire_font size with
    | Raise e => Raise e
    | Return fnt =>
        let text := label size in
        match textbbox_call T (0, 0) text fnt with
        | Raise e => Raise e
        | Return bbox =>
            let '(b0, b1, b2, b3) := bbox in
            let text_width := b2 - b0 in
            let text_height := b3 - b1 in
            let text_x := (size - text_width) / 2 in
            let text_y := (size - text_height) / 2 in
            match text_call T (text_x, text_y) text (255, 255, 255) fnt with
            | Raise e => Raise e
            | Return _ =>
                Return (paint (Text (text_x, text_y) text (255, 255, 255) fnt)
                              img)
            end
        end
    end
  else Return img.

(** Lines 16-62. *)
Definition draw_icon (size : Z) : outcome image :=
  match Image_new RGB size size (0, 123, 255) with
  | Raise e => Raise e
  | Return img =>
      let margin := size / 4 in
      let center := size / 2 in
      let radius := center - margin in
      let img := paint (Ellipse (margin, margin, size - margin, size - margin)
                                (255, 255, 255) (Z.max 2 (size / 32))) img in
      match draw_text size img with
      | Raise e => Raise e
      | Return img => Return (draw_arc size center img)
      end
  end.

Definition create_icon (size : Z) (filename : string) : M unit :=
  match draw_icon size with
  | Raise e => raise e
  | Return img =>
      save E img filename >>>
      print (created_message filename size)
  end.

End Script.

End Unguarded.

(** The three calls as [Script] takes them: they return, [load_default]
    with the built-in font and [textbbox] with the measure of the machine. *)
Definition returning_calls (E : env) : text_calls :=
  TextCalls (Return DefaultFont)
            (λ xy text fnt, Return (textbbox E xy text fnt))
            (λ _ _ _ _, Return tt).


(** A box moved by [xy]. *)
Definition shift_box (xy : Z * Z) (b : box) : box :=
  let '(b0, b1, b2, b3) := b in
  (b0 + xy.1, b1 + xy.2, b2 + xy.1, b3 + xy.2).

(** As [bare_machine], with a font whose glyphs are 27 pixels wide and
    start 11 pixels below the point they are drawn at, 31 pixels high. *)
Definition offset_machine : env :=
  Env true
      (truetype bare_machine)
      (λ xy text _,
         (xy.1, xy.2 + 11, xy.1 + 27 * Z.of_nat (String.length text), xy.2 + 42))
      (encode_png bare_machine)
      (writable bare_machine).

(** ** The canvas *)

Section Canvas.

Context (E : env).

Lemma Image_new_ok (m : mode) (size : Z) (c : color) :
  0 ≤ size → Image_new m size size c = Return (Image m size size c []).
Proof.
  intros Hsize. unfold Image_new.
  destruct (size <? 0) eqn:Hneg; [apply Z.ltb_lt in Hneg; lia | reflexivity].
Qed.

(** For a size that [Image.new] accepts, the canvas is the ellipse,
    then whatever the two size tests add. *)
Lemma draw_icon_ok (size : Z) :
  0 ≤ size →
  draw_icon E size =
    Return
      (draw_arc size (size / 2)
         (draw_text E size
            (paint (Ellipse (size / 4, size / 4, size - size / 4, size - size / 4)
                            (255, 255, 255) (Z.max 2 (size / 32)))
                   (Image RGB size size (0, 123, 255) [])))).
Proof.
  intros Hsize. unfold draw_icon. by rewrite Image_new_ok.
Qed.

Lemma draw_icon_negative (size : Z) :
  size < 0 → draw_icon E size = Raise ValueError.
Proof.
  intros Hsize. unfold draw_icon, Image_new.
  destruct (size <? 0) eqn:Hneg; [reflexivity | apply Z.ltb_ge in Hneg; lia].
Qed.

(** Painting never touches the allocation parameters. *)
Lemma draw_text_frame (size : Z) (img : image) :
  im_mode (draw_text E size img) = im_mode img ∧
  im_width (draw_text E size img) = im_width img ∧
  im_height (draw_text E size img) = im_height img ∧
  im_color (draw_text E size img) = im_color img.
Proof.
  unfold draw_text. destruct (48 <=? size); [|done].
  by destruct (textbbox E (0, 0) (label size) (acquire_font E size))
    as [[[b0 b1] b2] b3].
Qed.

Lemma draw_arc_frame (size center : Z) (img : image) :
  im_mode (draw_arc size center img) = im_mode img ∧
  im_width (draw_arc size center img) = im_width img ∧
  im_height (draw_arc size center img) = im_height img ∧
  im_color (draw_arc size center img) = im_color img.
Proof. unfold draw_arc. by destruct (size <? 48). Qed.

(** What each branch adds to the list of primitives. *)
Lemma draw_text_drawn (size : Z) (img : image) :
  im_drawn (draw_text E size img) =
    im_drawn img ++
    (if 48 <=? size then
       let b := textbbox E (0, 0) (label size) (acquire_font E size) in
       [Text ((size - (b.1.2 - b.1.1.1)) / 2, (size - (b.2 - b.1.1.2)) / 2)
             (label size) (255, 255, 255) (acquire_font E size)]
     else []).
Proof.
  unfold draw_text. destruct (48 <=? size); [|by rewrite app_nil_r].
  by destruct (textbbox E (0, 0) (label size) (acquire_font E size))
    as [[[b0 b1] b2] b3].
Qed.

Lemma draw_arc_drawn (size center : Z) (img : image) :
  im_drawn (draw_arc size center img) =
    im_drawn img ++
    (if size <? 48 then
       [Arc (center - size / 3, center - size / 3,
             center + size / 3, center + size / 3)
            45 315 (255, 255, 255) (Z.max 1 (size / 16))]
     else []).
Proof. unfold draw_arc. destruct (size <? 48); [done | by rewrite app_nil_r]. Qed.

(** The whole list of primitives of an icon. *)
Lemma draw_icon_drawn (size : Z) :
  0 ≤ size →
  ∃ img, draw_icon E size = Return img ∧
    im_drawn img =
      [Ellipse (size / 4, size / 4, size - size / 4, size - size / 4)
               (255, 255, 255) (Z.max 2 (size / 32))] ++
      (if 48 <=? size then
         let b := textbbox E (0, 0) (label size) (acquire_font E size) in
         [Text ((size - (b.1.2 - b.1.1.1)) / 2, (size - (b.2 - b.1.1.2)) / 2)
               (label size) (255, 255, 255) (acquire_font E size)]
       else []) ++
      (if size <? 48 then
         [Arc (size / 2 - size / 3, size / 2 - size / 3,
               size / 2 + size / 3, size / 2 + size / 3)
              45 315 (255, 255, 255) (Z.max 1 (size / 16))]
       else []).
Proof.
  intros Hsize. eexists. split; [by apply draw_icon_ok|].
  rewrite draw_arc_drawn, draw_text_drawn. simpl. by rewrite <- ?app_assoc.
Qed.

End Canvas.

(** C1. For every positive size exactly one of the two visual branches is
    taken: from 48 up the canvas gets a text and no arc, below 48 an arc
    and no text; 48 itself is on the text side. *)
Theorem create_icon_one_branch (E : env) (size : Z) :
  0 < size →
  ∃ img, draw_icon E size = Return img ∧
    ((48 ≤ size ∧ has_text img = true ∧ has_arc img = false) ∨
     (size < 48 ∧ has_arc img = true ∧ has_text img = false)) ∧
    (size = 48 → has_text img = true ∧ has_arc img = false).
Proof.
  intros Hsize.
  destruct (draw_icon_drawn E size) as (img & Himg & Hdrawn); [lia|].
  exists img. split; [done|].
  assert (Hbranch : (48 ≤ size ∧ has_text img = true ∧ has_arc img = false) ∨
                    (size < 48 ∧ has_arc img = true ∧ has_text img = false)).
  { unfold has_text, has_arc. rewrite Hdrawn.
    destruct (Z.leb_spec 48 size) as [Hge|Hlt].
    - left. destruct (Z.ltb_spec size 48); [lia|]. by simpl.
    - right. destruct (Z.ltb_spec size 48); [|lia]. by simpl. }
  split; [done|]. intros ->. destruct Hbranch as [(_ & ? & ?)|(? & _)]; [done|lia].
Qed.

Lemma create_icon_one_branch_witness :
  ∃ img, draw_icon bare_machine 48 = Return img ∧
    ((48 ≤ 48 ∧ has_text img = true ∧ has_arc img = false) ∨
     (48 < 48 ∧ has_arc img = true ∧ has_text img = false)) ∧
    (48 = 48 → has_text img = true ∧ has_arc img = false).
Proof. apply (create_icon_one_branch bare_machine 48). lia. Defined.

(** C2. In the text branch the label is ["S"] for sizes from 48 up to 63
    and ["SEO"] from 64 up, and it is the only text drawn. *)
Theorem create_icon_label (E : env) (size : Z) :
  48 ≤ size →
  ∃ img, draw_icon E size = Return img ∧
    (size < 64 → drawn_texts img = ["S"]) ∧
    (64 ≤ size → drawn_texts img = ["SEO"]).
Proof.
  intros Hsize.
  destruct (draw_icon_drawn E size) as (img & Himg & Hdrawn); [lia|].
  exists img. split; [done|].
  unfold drawn_texts. rewrite Hdrawn.
  destruct (Z.leb_spec 48 size); [|lia]. destruct (Z.ltb_spec size 48); [lia|].
  unfold label. simpl.
  split; intros ?; destruct (Z.leb_spec 64 size); done || lia.
Qed.

Lemma create_icon_label_witness :
  ∃ img, draw_icon bare_machine 128 = Return img ∧
    (128 < 64 → drawn_texts img = ["S"]) ∧
    (64 ≤ 128 → drawn_texts img = ["SEO"]).
Proof. apply (create_icon_label bare_machine 128). lia. Defined.

(** C4. For every positive size the only ellipse drawn has stroke width
    [max(2, size // 32)]; that is 2 at size 16 and 4 at size 128. *)
Theorem create_icon_stroke_width (E : env) (size : Z) :
  0 < size →
  ∃ img, draw_icon E size = Return img ∧
    ellipse_widths img = [Z.max 2 (size / 32)] ∧
    (size = 16 → ellipse_widths img = [2]) ∧
    (size = 128 → ellipse_widths img = [4]).
Proof.
  intros Hsize.
  destruct (draw_icon_drawn E size) as (img & Himg & Hdrawn); [lia|].
  exists img. split; [done|].
  assert (Hw : ellipse_widths img = [Z.max 2 (size / 32)]).
  { unfold ellipse_widths. rewrite Hdrawn.
    by destruct (48 <=? size), (size <? 48). }
  split; [done|]. split; intros ->; by rewrite Hw.
Qed.

Lemma create_icon_stroke_width_witness :
  ∃ img, draw_icon bare_machine 16 = Return img ∧
    ellipse_widths img = [Z.max 2 (16 / 32)] ∧
    (16 = 16 → ellipse_widths img = [2]) ∧
    (16 = 128 → ellipse_widths img = [4]).
Proof. apply (create_icon_stroke_width bare_machine 16). lia. Defined.

(** C7. For every positive size the canvas is square, [size] wide and
    high, in mode RGB, which has no alpha channel, and filled with
    RGB(0,123,255). *)
Theorem create_icon_canvas (E : env) (size : Z) :
  0 < size →
  ∃ img, draw_icon E size = Return img ∧
    im_width img = size ∧ im_height img = size ∧
    im_width img = im_height img ∧
    im_mode img = RGB ∧ has_alpha (im_mode img) = false ∧
    im_color img = (0, 123, 255).
Proof.
  intros Hsize. eexists. split; [apply draw_icon_ok; lia|].
  destruct (draw_arc_frame size (size / 2)
              (draw_text E size
                 (paint (Ellipse (size / 4, size / 4, size - size / 4, size - size / 4)
                                 (255, 255, 255) (Z.max 2 (size / 32)))
                        (Image RGB size size (0, 123, 255) []))))
    as (-> & -> & -> & ->).
  destruct (draw_text_frame E size
              (paint (Ellipse (size / 4, size / 4, size - size / 4, size - size / 4)
                              (255, 255, 255) (Z.max 2 (size / 32)))
                     (Image RGB size size (0, 123, 255) [])))
    as (-> & -> & -> & ->).
  by simpl.
Qed.

Lemma create_icon_canvas_witness :
  ∃ img, draw_icon bare_machine 16 = Return img ∧
    im_width img = 16 ∧ im_height img = 16 ∧
    im_width img = im_height img ∧
    im_mode img = RGB ∧ has_alpha (im_mode img) = false ∧
    im_color img = (0, 123, 255).
Proof. apply (create_icon_canvas bare_machine 16). lia. Defined.

(** C5 as the specification words it fails on the orientation: the arc
    of the 16-pixel icon does not leave its opening toward the lower
    right. *)
Lemma create_icon_arc_gap_not_lower_right :
  ¬ ∃ img p, draw_icon bare_machine 16 = Return img ∧
             p ∈ drawn_arcs img ∧ gap_direction p = Some ToLowerRight.
Proof.
  intros (img & p & Himg & Hp & Hdir).
  assert (img = Image RGB 16 16 (0, 123, 255)
                  [Ellipse (4, 4, 12, 12) (255, 255, 255) 2;
                   Arc (3, 3, 13, 13) 45 315 (255, 255, 255) 1]) as ->.
  { vm_compute in Himg. congruence. }
  vm_compute in Hp. apply list_elem_of_singleton in Hp. subst p.
  vm_compute in Hdir. discriminate.
Qed.

(** C5, amended. For every positive size below 48 the one arc drawn sits
    in the box [center-L, center-L, center+L, center+L] with
    [L = size // 3] and [center = size // 2], runs from 45 to 315 degrees,
    which is 270 degrees of arc and 90 degrees of opening, is white and
    [max(1, size // 16)] wide; the opening is centred on 0 degrees, the
    3 o'clock direction, so it points to the right. *)
Theorem create_icon_arc (E : env) (size : Z) :
  0 < size → size < 48 →
  ∃ img, draw_icon E size = Return img ∧
    drawn_arcs img =
      [Arc (size / 2 - size / 3, size / 2 - size / 3,
            size / 2 + size / 3, size / 2 + size / 3)
           45 315 (255, 255, 255) (Z.max 1 (size / 16))] ∧
    arc_span 45 315 = 270 ∧ gap_extent 45 315 = 90 ∧
    gap_middle 45 315 = 0 ∧
    ∀ p, p ∈ drawn_arcs img → gap_direction p = Some ToRight.
Proof.
  intros Hpos Hsmall.
  destruct (draw_icon_drawn E size) as (img & Himg & Hdrawn); [lia|].
  exists img. split; [done|].
  assert (Harcs : drawn_arcs img =
      [Arc (size / 2 - size / 3, size / 2 - size / 3,
            size / 2 + size / 3, size / 2 + size / 3)
           45 315 (255, 255, 255) (Z.max 1 (size / 16))]).
  { unfold drawn_arcs. rewrite Hdrawn.
    destruct (Z.leb_spec 48 size); [lia|]. destruct (Z.ltb_spec size 48); [|lia].
    reflexivity. }
  rewrite Harcs. repeat split; try reflexivity.
  intros p Hp. apply list_elem_of_singleton in Hp. by subst p.
Qed.

Lemma create_icon_arc_witness :
  ∃ img, draw_icon bare_machine 16 = Return img ∧
    drawn_arcs img =
      [Arc (16 / 2 - 16 / 3, 16 / 2 - 16 / 3, 16 / 2 + 16 / 3, 16 / 2 + 16 / 3)
           45 315 (255, 255, 255) (Z.max 1 (16 / 16))] ∧
    arc_span 45 315 = 270 ∧ gap_extent 45 315 = 90 ∧
    gap_middle 45 315 = 0 ∧
    ∀ p, p ∈ drawn_arcs img → gap_direction p = Some ToRight.
Proof. apply (create_icon_arc bare_machine 16); lia. Defined.

(** ** One call of [create_icon] *)

Section OneCall.

Context (E : env).

Lemma create_icon_ok (size : Z) (filename : string) (img : image) (w : world) :
  draw_icon E size = Return img →
  writable E filename = true →
  create_icon E size filename w =
    (World (<[filename := encode_png E img]> (files w))
           (stdout w +:+ created_message filename size +:+ nl),
     Return tt).
Proof.
  intros Himg Hw. unfold create_icon. rewrite Himg.
  unfold and_then, bind, save. by rewrite Hw.
Qed.

Lemma create_icon_unwritable (size : Z) (filename : string) (w : world) :
  0 ≤ size →
  writable E filename = false →
  create_icon E size filename w = (w, Raise OSError).
Proof.
  intros Hsize Hw. unfold create_icon. rewrite draw_icon_ok by done.
  unfold and_then, bind, save. by rewrite Hw.
Qed.

Lemma create_icon_negative (size : Z) (filename : string) (w : world) :
  size < 0 → create_icon E size filename w = (w, Raise ValueError).
Proof.
  intros Hsize. unfold create_icon. by rewrite draw_icon_negative.
Qed.

(** A call that raises leaves the world as it found it. *)
Lemma create_icon_raise_world (size : Z) (filename : string) (w : world) (e : exn) :
  (create_icon E size filename w).2 = Raise e →
  (create_icon E size filename w).1 = w.
Proof.
  unfold create_icon. destruct (draw_icon E size) as [img|e']; [|done].
  unfold and_then, bind, save. by destruct (writable E filename).
Qed.

End OneCall.


(** ** The driver *)

Lemma string_app_length (s t : string) :
  String.length (s +:+ t) = (String.length s + String.length t)%nat.
Proof. induction s as [|c s IH]; simpl; [done | by rewrite IH]. Qed.

Lemma string_app_assoc (s t u : string) : (s +:+ t) +:+ u = s +:+ t +:+ u.
Proof.
  induction s as [|c s IH]; [done|].
  change (String c ((s +:+ t) +:+ u) = String c (s +:+ t +:+ u)).
  by rewrite IH.
Qed.

Lemma string_app_inj_r (t s1 s2 : string) : s1 +:+ t = s2 +:+ t → s1 = s2.
Proof.
  revert s2. induction s1 as [|c s1 IH]; intros [|d s2] Heq.
  - done.
  - apply (f_equal String.length) in Heq.
    rewrite !string_app_length in Heq. simpl in Heq. lia.
  - apply (f_equal String.length) in Heq.
    rewrite !string_app_length in Heq. simpl in Heq. lia.
  - change (String c (s1 +:+ t) = String d (s2 +:+ t)) in Heq.
    injection Heq as -> Heq. f_equal. by apply IH.
Qed.

(** Different sizes give different file names. *)
Lemma icon_name_inj (s1 s2 : Z) : icon_name s1 = icon_name s2 → s1 = s2.
Proof.
  unfold icon_name, str. intros Heq.
  apply (inj (String.app "icon")) in Heq.
  apply string_app_inj_r in Heq. by apply (inj pretty) in Heq.
Qed.

Section Driver.

Context (E : env).

(** A call either stores the icon and prints its line, or raises and
    changes nothing. *)
Lemma create_icon_cases (size : Z) (filename : string) (w : world) :
  (∃ img, draw_icon E size = Return img ∧ writable E filename = true ∧
          create_icon E size filename w =
            (World (<[filename := encode_png E img]> (files w))
                   (stdout w +:+ created_message filename size +:+ nl),
             Return tt)) ∨
  (∃ e, create_icon E size filename w = (w, Raise e)).
Proof.
  destruct (draw_icon E size) as [img|e] eqn:Himg.
  - destruct (writable E filename) eqn:Hw.
    + left. exists img. by rewrite (create_icon_ok E size filename img).
    + right. exists OSError. unfold create_icon. rewrite Himg.
      unfold and_then, bind, save. by rewrite Hw.
  - right. exists e. unfold create_icon. by rewrite Himg.
Qed.

Lemma for_sizes_cons (size : Z) (rest : list Z) (w : world) :
  for_sizes E (size :: rest) w =
    match create_icon E size (icon_name size) w with
    | (w', Return _) => for_sizes E rest w'
    | (w', Raise e) => (w', Raise e)
    end.
Proof. reflexivity. Qed.

Lemma for_sizes_cons_ok (size : Z) (rest : list Z) (img : image) (w : world) :
  draw_icon E size = Return img →
  writable E (icon_name size) = true →
  for_sizes E (size :: rest) w =
    for_sizes E rest
      (World (<[icon_name size := encode_png E img]> (files w))
             (stdout w +:+ created_message (icon_name size) size +:+ nl)).
Proof.
  intros Himg Hw.
  by rewrite for_sizes_cons, (create_icon_ok E size (icon_name size) img).
Qed.

(** The loop stops at the first call that raises. *)
Lemma for_sizes_stops (size : Z) (rest : list Z) (w : world) (e : exn) :
  (create_icon E size (icon_name size) w).2 = Raise e →
  for_sizes E (size :: rest) w = (w, Raise e).
Proof.
  intros Hraise. rewrite for_sizes_cons.
  pose proof (create_icon_raise_world E size (icon_name size) w e Hraise) as Hw.
  destruct (create_icon E size (icon_name size) w) as [w' [[]|e']];
    simpl in *; congruence.
Qed.

Lemma for_sizes_app (before after : list Z) (w : world) :
  (for_sizes E before w).2 = Return tt →
  for_sizes E (before ++ after) w = for_sizes E after (for_sizes E before w).1.
Proof.
  revert w. induction before as [|size before IH]; intros w Hok; [done|].
  simpl app. rewrite for_sizes_cons in Hok. rewrite !for_sizes_cons.
  destruct (create_icon E size (icon_name size) w) as [w' [[]|e]]; [|done].
  by apply IH.
Qed.

(** An icon on disk stays there, with the same bytes, whatever the
    loop does next. *)
Lemma for_sizes_keeps (l : list Z) (w : world) (s : Z) (img : image) :
  draw_icon E s = Return img →
  files w !! icon_name s = Some (encode_png E img) →
  files (for_sizes E l w).1 !! icon_name s = Some (encode_png E img).
Proof.
  intros Himg. revert w. induction l as [|a l IH]; intros w Hw; [done|].
  rewrite for_sizes_cons.
  destruct (create_icon_cases a (icon_name a) w)
    as [(imga & Ha & _ & ->)|(e & ->)]; [|done].
  apply IH. simpl. destruct (decide (a = s)) as [->|Hne].
  - assert (imga = img) as -> by congruence. apply lookup_insert_eq.
  - rewrite lookup_insert_ne; [done|]. intros Heq. by apply icon_name_inj in Heq.
Qed.

(** The loop writes only under the names of the sizes it is given. *)
Lemma for_sizes_elsewhere (l : list Z) (w : world) (s : Z) :
  s ∉ l → files (for_sizes E l w).1 !! icon_name s = files w !! icon_name s.
Proof.
  revert w. induction l as [|a l IH]; intros w Hs; [done|].
  apply not_elem_of_cons in Hs as [Hne Hs].
  rewrite for_sizes_cons.
  destruct (create_icon_cases a (icon_name a) w)
    as [(imga & Ha & _ & ->)|(e & ->)]; [|done].
  rewrite IH by done. simpl. rewrite lookup_insert_ne; [done|].
  intros Heq. by apply icon_name_inj in Heq.
Qed.

(** After a loop that ran to its end, every size has its icon on disk. *)
Lemma for_sizes_written (l : list Z) (w : world) (s : Z) (img : image) :
  (for_sizes E l w).2 = Return tt →
  s ∈ l →
  draw_icon E s = Return img →
  files (for_sizes E l w).1 !! icon_name s = Some (encode_png E img).
Proof.
  revert w. induction l as [|a l IH]; intros w Hok Hs Himg.
  - by apply elem_of_nil in Hs.
  - rewrite for_sizes_cons in Hok |- *.
    destruct (create_icon_cases a (icon_name a) w)
      as [(imga & Ha & _ & Hcall)|(e & Hcall)]; rewrite Hcall in Hok |- *;
      [|done].
    destruct (decide (s = a)) as [->|Hne].
    + assert (imga = img) as -> by congruence.
      apply for_sizes_keeps; [done|]. apply lookup_insert_eq.
    + apply IH; [done| |done]. by apply elem_of_cons in Hs as [?|?].
Qed.

End Driver.

(** C3 as the specification words it fails on the count of lines: on a
    machine where everything succeeds the console does not show four
    lines, because the summary is printed after an empty line. *)
Lemma driver_output_not_four_lines :
  ¬ ∃ l1 l2 l3 l4,
      lines (stdout (script bare_machine empty_world).1) = [l1; l2; l3; l4].
Proof.
  intros (l1 & l2 & l3 & l4 & Hlines). vm_compute in Hlines. discriminate.
Qed.

(** C3, amended. With Pillow installed and the three paths writable, the
    script returns, the files it stores are exactly [icon16.png],
    [icon48.png] and [icon128.png], each holding the encoded canvas of
    its size, and its four [print] calls put five lines on the console:
    the three "Created ..." lines, an empty line and the summary. *)
Theorem driver_output (E : env) (w : world) :
  pillow_installed E = true →
  writable E "icon16.png" = true →
  writable E "icon48.png" = true →
  writable E "icon128.png" = true →
  ∃ img16 img48 img128 out,
    draw_icon E 16 = Return img16 ∧
    draw_icon E 48 = Return img48 ∧
    draw_icon E 128 = Return img128 ∧
    script E w =
      (World (<["icon128.png" := encode_png E img128]>
                (<["icon48.png" := encode_png E img48]>
                   (<["icon16.png" := encode_png E img16]> (files w))))
             (stdout w +:+ out),
       Return tt) ∧
    dom (files (script E w).1) =
      dom (files w) ∪ {["icon16.png"; "icon48.png"; "icon128.png"]} ∧
    lines out =
      ["Created icon16.png (16x16)"; "Created icon48.png (48x48)";
       "Created icon128.png (128x128)"; ""; "Icons generated successfully!"].
Proof.
  intros Hpil H16 H48 H128.
  destruct (draw_icon_drawn E 16) as (img16 & Himg16 & _); [lia|].
  destruct (draw_icon_drawn E 48) as (img48 & Himg48 & _); [lia|].
  destruct (draw_icon_drawn E 128) as (img128 & Himg128 & _); [lia|].
  exists img16, img48, img128.
  exists ("Created icon16.png (16x16)" +:+ nl +:+
          "Created icon48.png (48x48)" +:+ nl +:+
          "Created icon128.png (128x128)" +:+ nl +:+
          nl +:+ "Icons generated successfully!" +:+ nl).
  assert (Hscript : script E w =
      (World (<["icon128.png" := encode_png E img128]>
                (<["icon48.png" := encode_png E img48]>
                   (<["icon16.png" := encode_png E img16]> (files w))))
             (stdout w +:+
                ("Created icon16.png (16x16)" +:+ nl +:+
                 "Created icon48.png (48x48)" +:+ nl +:+
                 "Created icon128.png (128x128)" +:+ nl +:+
                 nl +:+ "Icons generated successfully!" +:+ nl)),
       Return tt)).
  { unfold script, import_pillow. rewrite Hpil.
    unfold and_then at 1. unfold bind at 1. unfold ret.
    unfold main, sizes, and_then at 1. unfold bind at 1.
    rewrite (for_sizes_cons_ok E 16 _ img16) by done.
    rewrite (for_sizes_cons_ok E 48 _ img48) by done.
    rewrite (for_sizes_cons_ok E 128 _ img128) by done.
    simpl for_sizes. unfold ret, print. simpl.
    change (icon_name 16) with "icon16.png".
    change (icon_name 48) with "icon48.png".
    change (icon_name 128) with "icon128.png".
    change (created_message "icon16.png" 16) with "Created icon16.png (16x16)".
    change (created_message "icon48.png" 48) with "Created icon48.png (48x48)".
    change (created_message "icon128.png" 128)
      with "Created icon128.png (128x128)".
    by rewrite !string_app_assoc. }
  repeat split; try done.
  rewrite Hscript. simpl. rewrite !dom_insert_L.
  apply set_eq. intros path. rewrite !elem_of_union, !elem_of_singleton. tauto.
Qed.

Lemma driver_output_witness :
  ∃ img16 img48 img128 out,
    draw_icon bare_machine 16 = Return img16 ∧
    draw_icon bare_machine 48 = Return img48 ∧
    draw_icon bare_machine 128 = Return img128 ∧
    script bare_machine empty_world =
      (World (<["icon128.png" := encode_png bare_machine img128]>
                (<["icon48.png" := encode_png bare_machine img48]>
                   (<["icon16.png" := encode_png bare_machine img16]>
                      (files empty_world))))
             (stdout empty_world +:+ out),
       Return tt) ∧
    dom (files (script bare_machine empty_world).1) =
      dom (files empty_world) ∪ {["icon16.png"; "icon48.png"; "icon128.png"]} ∧
    lines out =
      ["Created icon16.png (16x16)"; "Created icon48.png (48x48)";
       "Created icon128.png (128x128)"; ""; "Icons generated successfully!"].
Proof.
  apply (driver_output bare_machine empty_world); reflexivity.
Defined.

(** C9. When a call in the loop raises, the driver ends with that same
    exception: the world is the one the calls before it left, so their
    icons are on disk with their bytes, nothing is stored or printed for
    the sizes after it, and no summary is printed. *)
Theorem driver_failure_propagates
    (E : env) (before after : list Z) (size : Z) (e : exn) (w : world) :
  sizes = before ++ size :: after →
  (for_sizes E before w).2 = Return tt →
  (create_icon E size (icon_name size) (for_sizes E before w).1).2 = Raise e →
  (main E w).2 = Raise e ∧
  (main E w).1 = (for_sizes E before w).1 ∧
  (∀ s img, s ∈ before → draw_icon E s = Return img →
            files (main E w).1 !! icon_name s = Some (encode_png E img)) ∧
  (∀ s, s ∉ before →
        files (main E w).1 !! icon_name s = files w !! icon_name s).
Proof.
  intros Hsizes Hbefore Hraise.
  assert (Hmain : main E w = ((for_sizes E before w).1, Raise e)).
  { unfold main. rewrite Hsizes. unfold and_then, bind.
    rewrite for_sizes_app by done.
    by rewrite (for_sizes_stops E size after _ e). }
  rewrite Hmain. simpl. repeat split.
  - intros s img Hs Himg. by apply for_sizes_written.
  - intros s Hs. by apply for_sizes_elsewhere.
Qed.

Lemma driver_failure_propagates_witness :
  (main locked_machine empty_world).2 = Raise OSError ∧
  (main locked_machine empty_world).1
    = (for_sizes locked_machine [16] empty_world).1 ∧
  (∀ s img, s ∈ [16] → draw_icon locked_machine s = Return img →
            files (main locked_machine empty_world).1 !! icon_name s
              = Some (encode_png locked_machine img)) ∧
  (∀ s, s ∉ [16] →
        files (main locked_machine empty_world).1 !! icon_name s
          = files empty_world !! icon_name s).
Proof.
  apply (driver_failure_propagates locked_machine [16] [128] 48 OSError
           empty_world); reflexivity.
Defined.

(** C10. Without Pillow the script prints the installation hint and the
    process ends with status 1, with no file touched and nothing else
    printed. *)
Theorem missing_pillow_exits_1 (E : env) (w : world) :
  pillow_installed E = false →
  run E w =
    (World (files w)
           (stdout w +:+
            "Error: Pillow not installed. Install it with: pip install Pillow"
            +:+ nl),
     1).
Proof.
  intros Hpil. unfold run, script, import_pillow. by rewrite Hpil.
Qed.

Lemma missing_pillow_exits_1_witness :
  run no_pillow_machine empty_world =
    (World (files empty_world)
           (stdout empty_world +:+
            "Error: Pillow not installed. Install it with: pip install Pillow"
            +:+ nl),
     1).
Proof. apply (missing_pillow_exits_1 no_pillow_machine empty_world). reflexivity. Defined.

(** ** Geometry of what is painted *)






(** X4. Every icon is made of exactly two drawing calls, and the circle
    is the first of them: the text or the arc is painted over it. *)
Theorem circle_then_one_overlay (E : env) (size : Z) :
  0 ≤ size →
  ∃ img xy outline width overlay,
    draw_icon E size = Return img ∧
    im_drawn img = [Ellipse xy outline width; overlay] ∧
    (is_text overlay = true ∨ is_arc overlay = true).
Proof.
  intros Hsize.
  destruct (draw_icon_drawn E size) as (img & Himg & Hdrawn); [lia|].
  destruct (Z.leb_spec 48 size); destruct (Z.ltb_spec size 48); try lia;
    simpl in Hdrawn; do 5 eexists; (split; [exact Himg|]);
    (split; [exact Hdrawn|]); [left | right]; reflexivity.
Qed.

Lemma circle_then_one_overlay_witness :
  ∃ img xy outline width overlay,
    draw_icon bare_machine 128 = Return img ∧
    im_drawn img = [Ellipse xy outline width; overlay] ∧
    (is_text overlay = true ∨ is_arc overlay = true).
Proof. apply (circle_then_one_overlay bare_machine 128). lia. Defined.

(** X5. The first font that resolves wins: when the system font path
    resolves, the text is drawn in that font whatever ["arial.ttf"] would
    give; when it does not and ["arial.ttf"] resolves, in that one.  Both
    are asked for at point size [size // 3]. *)
Theorem first_font_wins (E : env) (size : Z) (f : font) :
  48 ≤ size →
  (truetype E "/System/Library/Fonts/Helvetica.ttc" (size / 3) = Some f ∨
   (truetype E "/System/Library/Fonts/Helvetica.ttc" (size / 3) = None ∧
    truetype E "arial.ttf" (size / 3) = Some f)) →
  ∃ img, draw_icon E size = Return img ∧ drawn_fonts img = [f].
Proof.
  intros Hsize Hfont.
  assert (Hacq : acquire_font E size = f).
  { unfold acquire_font. destruct Hfont as [->|[-> ->]]; reflexivity. }
  destruct (draw_icon_drawn E size) as (img & Himg & Hdrawn); [lia|].
  exists img. split; [done|].
  unfold drawn_fonts. rewrite Hdrawn, Hacq.
  destruct (Z.leb_spec 48 size); [|lia]. by destruct (Z.ltb_spec size 48); [lia|].
Qed.



Lemma first_font_wins_witness :
  ∃ img, draw_icon helvetica_machine 128 = Return img ∧
    drawn_fonts img = [TrueType "/System/Library/Fonts/Helvetica.ttc" 42].
Proof.
  apply (first_font_wins helvetica_machine 128
           (TrueType "/System/Library/Fonts/Helvetica.ttc" 42));
    [lia | left; reflexivity].
Defined.

(** ** What one call does to the world *)

Section CallEffects.

Context (E : env).

(** The loop leaves alone every path that is not the name of one of its
    sizes. *)
Lemma for_sizes_frame (l : list Z) (w : world) (path : string) :
  (∀ s, s ∈ l → icon_name s ≠ path) →
  files (for_sizes E l w).1 !! path = files w !! path.
Proof.
  revert w. induction l as [|a l IH]; intros w Hl; [done|].
  rewrite for_sizes_cons.
  destruct (create_icon_cases E a (icon_name a) w)
    as [(imga & _ & _ & ->)|(e & ->)]; [|done].
  rewrite IH.
  - simpl. apply lookup_insert_ne. apply Hl. by apply elem_of_cons; left.
  - intros s Hs. apply Hl. by apply elem_of_cons; right.
Qed.

End CallEffects.

(** X7. The "Created" line is printed only once the file is stored: a
    call that raises prints nothing, and a call that returns has put the
    encoded canvas under the path it was given and appended exactly that
    one line. *)
Theorem created_line_only_after_store
    (E : env) (size : Z) (filename : string) (w : world) :
  (∀ e, (create_icon E size filename w).2 = Raise e →
        stdout (create_icon E size filename w).1 = stdout w) ∧
  ((create_icon E size filename w).2 = Return tt →
   ∃ img, draw_icon E size = Return img ∧
     files (create_icon E size filename w).1 !! filename
       = Some (encode_png E img) ∧
     stdout (create_icon E size filename w).1
       = stdout w +:+ created_message filename size +:+ nl).
Proof.
  destruct (create_icon_cases E size filename w)
    as [(img & Himg & _ & ->)|(e & ->)]; simpl.
  - split; [done|]. intros _. exists img. by rewrite lookup_insert_eq.
  - by split.
Qed.

(** X8. A call never touches a path other than the one it was given,
    whether it returns or raises. *)
Theorem create_icon_other_paths
    (E : env) (size : Z) (filename path : string) (w : world) :
  path ≠ filename →
  files (create_icon E size filename w).1 !! path = files w !! path.
Proof.
  intros Hne.
  destruct (create_icon_cases E size filename w)
    as [(img & _ & _ & ->)|(e & ->)]; simpl; [|done].
  by rewrite lookup_insert_ne.
Qed.

Lemma create_icon_other_paths_witness :
  files (create_icon bare_machine 16 "icon16.png" used_world).1 !! "notes.txt"
    = files used_world !! "notes.txt".
Proof.
  apply (create_icon_other_paths bare_machine 16 "icon16.png" "notes.txt"
           used_world).
  discriminate.
Defined.

(** X10. Two sizes share a file name only if they are the same size, so
    no icon of the loop overwrites another. *)
Theorem icon_names_distinct (s1 s2 : Z) :
  icon_name s1 = icon_name s2 ↔ s1 = s2.
Proof.
  split; [apply icon_name_inj | by intros ->].
Qed.



(** X13. Whatever happens, the script leaves every file other than
    [icon16.png], [icon48.png] and [icon128.png] exactly as it was. *)
Theorem script_other_paths (E : env) (w : world) (path : string) :
  path ≠ "icon16.png" → path ≠ "icon48.png" → path ≠ "icon128.png" →
  files (script E w).1 !! path = files w !! path.
Proof.
  intros H16 H48 H128.
  assert (Hloop : files (for_sizes E sizes w).1 !! path = files w !! path).
  { apply for_sizes_frame. unfold sizes. intros s Hs.
    repeat (apply elem_of_cons in Hs as [->|Hs]; [by intros <-|]).
    by apply elem_of_nil in Hs. }
  unfold script, import_pillow. destruct (pillow_installed E).
  - unfold and_then at 1. unfold bind at 1. unfold ret.
    unfold main, and_then, bind.
    by destruct (for_sizes E sizes w) as [w' [[]|e]].
  - done.
Qed.

Lemma script_other_paths_witness :
  files (script locked_machine used_world).1 !! "notes.txt"
    = files used_world !! "notes.txt".
Proof.
  apply (script_other_paths locked_machine used_world "notes.txt");
    discriminate.
Defined.

(** ** The font look-up and the calls after it *)

Section UnguardedCalls.

Context (E : env).

(** With the three calls returning, the finer reading of lines 16-62 is
    the one of [Script]. *)
Lemma unguarded_draw_icon_returning (size : Z) :
  Unguarded.draw_icon E (returning_calls E) size = draw_icon E size.
Proof.
  unfold Unguarded.draw_icon, draw_icon.
  destruct (Image_new RGB size size (0, 123, 255)) as [img|e]; [|done].
  unfold Unguarded.draw_text, draw_text, Unguarded.acquire_font, acquire_font.
  destruct (48 <=? size); [|done]. simpl.
  destruct (truetype E "/System/Library/Fonts/Helvetica.ttc" (size / 3))
    as [f|]; simpl.
  - by destruct (textbbox E (0, 0) (label size) f) as [[[b0 b1] b2] b3].
  - destruct (truetype E "arial.ttf" (size / 3)) as [f|]; simpl.
    + by destruct (textbbox E (0, 0) (label size) f) as [[[b0 b1] b2] b3].
    + by destruct (textbbox E (0, 0) (label size) DefaultFont)
        as [[[b0 b1] b2] b3].
Qed.

Lemma unguarded_create_icon_returning
    (size : Z) (filename : string) (w : world) :
  Unguarded.create_icon E (returning_calls E) size filename w
    = create_icon E size filename w.
Proof.
  unfold Unguarded.create_icon, create_icon.
  by rewrite unguarded_draw_icon_returning.
Qed.

Context (T : text_calls).



End UnguardedCalls.




(** X3. From size 48 up the text is placed from the width and the height
    of the box measured at the origin, and the offset of that box is not
    taken off: where measuring commutes with moving the text, the ink's
    left margin exceeds its right margin by twice the horizontal offset,
    or one pixel less, and its top margin exceeds its bottom margin by
    twice the vertical offset, or one pixel less.  The ink is centred
    only for a box that starts at the origin. *)
Theorem text_offset_not_subtracted (E : env) (size : Z) :
  48 ≤ size →
  (∀ xy, textbbox E xy (label size) (acquire_font E size)
         = shift_box xy (textbbox E (0, 0) (label size) (acquire_font E size))) →
  ∃ img x y,
    draw_icon E size = Return img ∧
    Text (x, y) (label size) (255, 255, 255) (acquire_font E size)
      ∈ im_drawn img ∧
    let '(b0, b1, _, _) := textbbox E (0, 0) (label size) (acquire_font E size) in
    let '(i0, i1, i2, i3) := textbbox E (x, y) (label size) (acquire_font E size) in
    2 * b0 - 1 ≤ i0 - (size - i2) ∧ i0 - (size - i2) ≤ 2 * b0 ∧
    2 * b1 - 1 ≤ i1 - (size - i3) ∧ i1 - (size - i3) ≤ 2 * b1.
Proof.
  intros Hsize Hshift.
  destruct (draw_icon_drawn E size) as (img & Himg & Hdrawn); [lia|].
  destruct (Z.leb_spec 48 size); [|lia]. destruct (Z.ltb_spec size 48); [lia|].
  destruct (textbbox E (0, 0) (label size) (acquire_font E size))
    as [[[b0 b1] b2] b3] eqn:Hbox.
  simpl in Hdrawn.
  exists img, ((size - (b2 - b0)) / 2), ((size - (b3 - b1)) / 2).
  split; [done|]. split.
  { rewrite Hdrawn. apply elem_of_cons; right. apply elem_of_cons; left.
    reflexivity. }
  rewrite (Hshift ((size - (b2 - b0)) / 2, (size - (b3 - b1)) / 2)).
  simpl.
  pose proof (Z.div_mod (size - (b2 - b0)) 2 ltac:(lia)) as Hdivx.
  pose proof (Z.mod_pos_bound (size - (b2 - b0)) 2 ltac:(lia)) as Hmodx.
  pose proof (Z.div_mod (size - (b3 - b1)) 2 ltac:(lia)) as Hdivy.
  pose proof (Z.mod_pos_bound (size - (b3 - b1)) 2 ltac:(lia)) as Hmody.
  lia.
Qed.

Lemma text_offset_not_subtracted_witness :
  ∃ img x y,
    draw_icon offset_machine 128 = Return img ∧
    Text (x, y) (label 128) (255, 255, 255) (acquire_font offset_machine 128)
      ∈ im_drawn img ∧
    let '(b0, b1, _, _) :=
      textbbox offset_machine (0, 0) (label 128) (acquire_font offset_machine 128) in
    let '(i0, i1, i2, i3) :=
      textbbox offset_machine (x, y) (label 128) (acquire_font offset_machine 128) in
    2 * b0 - 1 ≤ i0 - (128 - i2) ∧ i0 - (128 - i2) ≤ 2 * b0 ∧
    2 * b1 - 1 ≤ i1 - (128 - i3) ∧ i1 - (128 - i3) ≤ 2 * b1.
Proof.
  apply (text_offset_not_subtracted offset_machine 128); [lia|].
  intros [x y]. simpl. f_equal; [f_equal; [f_equal|]|]; lia.
Defined.
